(** * ParentPal symptom endpoint (src/main.py)

    A shallow embedding of the request handler [ask_symptom] and of the three
    helpers it calls ([is_child_health_query], [is_emergency],
    [sanitize_response]), with the properties of the handler's pipeline:
    validation, allow-list filter, emergency filter, model call, disclaimer. *)

From Stdlib Require Import List NArith String Ascii Bool Arith Lia.
Import ListNotations.

(** ** Python strings *)

(** A Python [str] is a sequence of Unicode code points; [len] counts code
    points, so the model keeps them as numbers rather than as UTF-8 bytes. *)
Module Str.

Definition str : Type := list N.

(** An ASCII literal of the source, as code points. *)
Definition lit (s : string) : str :=
  map N_of_ascii (list_ascii_of_string s).

Definition len (s : str) : nat := List.length s.

(** Truth value of a string: [not s] holds of the empty string only. *)
Definition truthy (s : str) : bool :=
  match s with [] => false | _ :: _ => true end.

Fixpoint eqb (s t : str) : bool :=
  match s, t with
  | [], [] => true
  | a :: s', b :: t' => N.eqb a b && eqb s' t'
  | _, _ => false
  end.

(** [s.startswith(w)]. *)
Fixpoint startswith (w s : str) : bool :=
  match w, s with
  | [], _ => true
  | _ :: _, [] => false
  | a :: w', b :: s' => N.eqb a b && startswith w' s'
  end.

(** [w in s]: [w] starts at some position of [s]. *)
Fixpoint contains (w s : str) : bool :=
  startswith w s ||
  match s with
  | [] => false
  | _ :: s' => contains w s'
  end.

(** Number of positions of [s] at which [w] starts (overlaps counted). *)
Fixpoint occurrences (w s : str) : nat :=
  (if startswith w s then 1 else 0) +
  match s with
  | [] => 0
  | _ :: s' => occurrences w s'
  end.

(** [w] is a contiguous part of [s]. *)
Definition Substring (w s : str) : Prop :=
  exists pre post, s = pre ++ w ++ post.

(** [any(f(x) for x in xs)]. *)
Definition any {A : Type} (f : A -> bool) (xs : list A) : bool := existsb f xs.

(** [str.isspace] on one code point: CPython's [_PyUnicode_IsWhitespace]
    table, the characters [str.strip()] removes. *)
Definition isspace (c : N) : bool :=
  ((9 <=? c) && (c <=? 13) ||
   (28 <=? c) && (c <=? 32) ||
   (c =? 133) || (c =? 160) || (c =? 5760) ||
   (8192 <=? c) && (c <=? 8202) ||
   (c =? 8232) || (c =? 8233) || (c =? 8239) || (c =? 8287) ||
   (c =? 12288))%N.

Fixpoint lstrip (s : str) : str :=
  match s with
  | [] => []
  | c :: s' => if isspace c then lstrip s' else s
  end.

Definition rstrip (s : str) : str := rev (lstrip (rev s)).

(** [s.strip()]: whitespace removed at both ends. *)
Definition strip (s : str) : str := rstrip (lstrip s).

(** [s.split()]: the maximal runs of non-whitespace code points. *)
Fixpoint split_from (cur : str) (s : str) : list str :=
  match s with
  | [] => match cur with [] => [] | _ => [rev cur] end
  | c :: s' =>
      if isspace c
      then match cur with [] => split_from [] s' | _ => rev cur :: split_from [] s' end
      else split_from (c :: cur) s'
  end.

Definition split (s : str) : list str := split_from [] s.

Definition isascii (c : N) : bool := (c <? 128)%N.

(** Lowercase of one ASCII code point: A-Z to a-z, the rest unchanged. *)
Definition ascii_lower (c : N) : N :=
  if ((65 <=? c) && (c <=? 90))%N then (c + 32)%N else c.

(** [str.lower] follows the Unicode case tables of the Python runtime, which
    are no part of the repository. The handler is modelled over any [lower]
    that is idempotent and is the ASCII lowercase map on ASCII text, both of
    which hold of Python's. *)
Class StrLower : Type := {
  lower : str -> str;
  lower_idempotent : forall s, lower (lower s) = lower s;
  lower_ascii : forall s, forallb isascii s = true -> lower s = map ascii_lower s
}.

End Str.
Import Str.


(** ** Responses, exceptions and the effects of a request *)

(** The handler returns a dict whose values are strings and booleans; FastAPI
    sends it as the JSON body of a 200 response. Keys are kept in the order
    the dict literal lists them. *)
Inductive json_value : Type :=
| JStr (s : str)
| JBool (b : bool).

Definition json : Type := list (string * json_value).

Fixpoint get (key : string) (d : json) : option json_value :=
  match d with
  | [] => None
  | (k, v) :: d' => if String.eqb k key then Some v else get key d'
  end.

Definition keys (d : json) : list string := map fst d.

(** [fastapi.HTTPException(status_code, detail)]. *)
Record HTTPException : Type := { status_code : N; detail : str }.

(** The exceptions the [try] block of the handler can see: its own
    [ValueError], and whatever the model client raises. *)
Inductive Exception : Type :=
| ValueError (msg : str)
| ApiError (msg : str).

(** [str(e)]. *)
Definition str_of (e : Exception) : str :=
  match e with ValueError msg => msg | ApiError msg => msg end.

(** What one call of [model.generate_content(prompt)] followed by reading
    [response.text] gives: a text (possibly empty) or an exception. *)
Inductive generation : Type :=
| Text (t : str)
| Raises (msg : str).

Definition GenerativeModel : Type := str -> generation.

(** The calls a request makes, in the order it makes them. *)
Inductive event : Type :=
| CallIsChildHealthQuery (text : str)
| CallIsEmergency (text : str)
| CallGenerateContent (prompt : str).

(** Computations that log their calls and either raise an [E] or return. *)
Definition M (E A : Type) : Type := (list event * (E + A))%type.

Definition ret {E A : Type} (a : A) : M E A := ([], inr a).

Definition raise {E A : Type} (e : E) : M E A := ([], inl e).

Definition bind {E A B : Type} (m : M E A) (k : A -> M E B) : M E B :=
  match m with
  | (t, inl e) => (t, inl e)
  | (t, inr a) => let (t', r) := k a in (t ++ t', r)
  end.

(** A call that is logged and returns [v]. *)
Definition call {E A : Type} (ev : event) (v : A) : M E A := ([ev], inr v).

(** [try: body except Exception as e: handler(e)]. *)
Definition try_except {E E' A : Type} (body : M E A) (handler : E -> M E' A) : M E' A :=
  match body with
  | (t, inr a) => (t, inr a)
  | (t, inl e) => let (t', r) := handler e in (t ++ t', r)
  end.

(** [if c: raise e]. *)
Definition raise_if {E : Type} (c : bool) (e : E) : M E unit :=
  if c then raise e else ret tt.

Declare Scope handler_scope.
Delimit Scope handler_scope with handler.
Notation "x <- c ;; k" := (bind c (fun x => k))
  (at level 61, c at next level, right associativity) : handler_scope.
Notation "c ;; k" := (bind c (fun _ => k))
  (at level 61, right associativity) : handler_scope.

Definition trace {E A : Type} (m : M E A) : list event := fst m.
Definition outcome {E A : Type} (m : M E A) : E + A := snd m.

(** ** src/main.py *)

Record SymptomRequest : Type := {
  symptom_name : str;
  description : str;
  severity : str;
  duration : str
}.

Definition ALLOWED_KEYWORDS : list str := map lit [
  "child"; "baby"; "infant"; "toddler"; "kid"; "newborn";
  "fever"; "cough"; "vomiting"; "diarrhea"; "constipation";
  "rash"; "vaccination"; "vaccine"; "immunization";
  "weight"; "height"; "growth"; "development";
  "milestone"; "sleep"; "nutrition"; "feeding"; "breastfeed";
  "teething"; "diaper"; "allergy"; "cold"; "flu"
]%string.

Definition EMERGENCY_KEYWORDS : list str := map lit [
  "seizure"; "seizures"; "unconscious"; "unconsciousness";
  "not breathing"; "choking"; "asphyxia";
  "blue lips"; "cyanosis"; "severe breathing";
  "very high fever"; "high fever over"; "104"; "40c";
  "severe bleeding"; "unresponsive"; "poisoning"; "overdose";
  "severe allergic"; "anaphylaxis"; "head injury"; "fall";
  "unable to wake"; "extreme lethargy"; "rigid neck"
]%string.

Definition nl : str := [10%N].
Definition dquote : str := [34%N].
(** U+26A0 U+FE0F, the warning sign of the disclaimers. *)
Definition warning_sign : str := [9888%N; 65039%N].
(** U+1F6A8, the siren of the emergency alert. *)
Definition siren : str := [128680%N].

Definition REFUSAL : str :=
  lit "I'm specifically designed to help with child health questions. This question appears unrelated to child health.".

Definition SYSTEM_PROMPT : str :=
  lit "You are a pediatric health assistant for parents caring for children aged 0-5 years." ++ nl ++
  nl ++
  lit "CRITICAL RULES:" ++ nl ++
  lit "1. ONLY answer questions about child health (ages 0-5 years)" ++ nl ++
  lit "2. NEVER diagnose, prescribe medications, or provide definitive medical advice" ++ nl ++
  lit "3. Provide general educational information only" ++ nl ++
  lit "4. Keep responses SHORT and TO THE POINT (2-3 sentences max, use bullet points if needed)" ++ nl ++
  lit "5. ALWAYS include this disclaimer at the end of every response:" ++ nl ++
  lit "   " ++ dquote ++ warning_sign ++
  lit " Disclaimer: This information is for educational purposes only. Please consult a pediatrician for proper medical advice." ++
  dquote ++ nl ++
  nl ++
  lit "RESPONSE GUIDELINES:" ++ nl ++
  lit "- Be direct and concise - avoid long paragraphs" ++ nl ++
  lit "- Use bullet points for multiple points" ++ nl ++
  lit "- Give practical, actionable advice not medication" ++ nl ++
  lit "- Suggest when to contact a doctor" ++ nl ++
  lit "- Keep language simple and non-technical" ++ nl ++
  nl ++
  lit "For unrelated questions, respond with:" ++ nl ++
  dquote ++ REFUSAL.

(** The word [sanitize_response] looks for. *)
Definition DISCLAIMER_MARK : str := lit "Disclaimer".

(** The local [disclaimer] of [sanitize_response]. *)
Definition disclaimer : str :=
  nl ++ nl ++ warning_sign ++
  lit " Disclaimer: This information is for educational purposes only and is NOT a medical diagnosis. Please consult a pediatrician for proper medical advice.".

Definition EMERGENCY_ALERT : str :=
  siren ++
  lit " EMERGENCY ALERT: Based on your description, this may be a medical emergency. Call emergency services or visit the nearest hospital immediately.".

Definition sanitize_response (response_text : str) : str :=
  if negb (contains DISCLAIMER_MARK response_text)
  then response_text ++ disclaimer
  else response_text.

Section Handler.

Context {L : StrLower}.

Definition is_child_health_query (text : str) : bool :=
  let text_lower := lower text in
  any (fun word => contains word text_lower) ALLOWED_KEYWORDS.

Definition is_emergency (text : str) : bool :=
  let text_lower := lower text in
  any (fun word => contains word text_lower) EMERGENCY_KEYWORDS.

(** The f-string of line 112, before [.lower()]. *)
Definition joined_fields (request : SymptomRequest) : str :=
  symptom_name request ++ lit " " ++ description request ++ lit " " ++
  severity request ++ lit " " ++ duration request.

Definition combined_query (request : SymptomRequest) : str :=
  lower (joined_fields request).

(** The f-string of lines 129-136. *)
Definition structured_query (request : SymptomRequest) : str :=
  nl ++
  lit "        Symptom: " ++ symptom_name request ++ nl ++
  lit "        Description: " ++ description request ++ nl ++
  lit "        Severity: " ++ severity request ++ nl ++
  lit "        Duration: " ++ duration request ++ nl ++
  lit "        " ++ nl ++
  lit "        Please provide guidance for this child health concern." ++ nl ++
  lit "        ".

Definition prompt_of (request : SymptomRequest) : str :=
  SYSTEM_PROMPT ++ (nl ++ nl ++ lit "Parent's Symptom Report: ") ++ structured_query request.

Variable model : GenerativeModel.

(** [model.generate_content(prompt)] and the read of [response.text]. *)
Definition generate_content (prompt : str) : M Exception str :=
  match model prompt with
  | Text t => call (CallGenerateContent prompt) t
  | Raises msg => (call (CallGenerateContent prompt) tt ;; raise (ApiError msg))%handler
  end.

Local Open Scope handler_scope.

(** The handler of [POST /ask-symptom]. A returned dict is a 200 response,
    a raised [HTTPException] the error response of its status code. The
    line the [except] branch prints to the server's output is no part of
    the response and is left out. *)
Definition ask_symptom (request : SymptomRequest) : M HTTPException json :=
  raise_if (negb (truthy (symptom_name request)) || (len (strip (symptom_name request)) <? 2))
    {| status_code := 400; detail := lit "Please provide a symptom name" |} ;;
  raise_if (negb (truthy (description request)) || (len (strip (description request)) <? 5))
    {| status_code := 400; detail := lit "Please provide a detailed description" |} ;;
  let combined_query := combined_query request in
  child <- call (CallIsChildHealthQuery combined_query) (is_child_health_query combined_query) ;;
  if negb child then
    ret [ ("response", JStr REFUSAL);
          ("emergency", JBool false);
          ("symptom", JStr (symptom_name request)) ]%string
  else
  emergency <- call (CallIsEmergency combined_query) (is_emergency combined_query) ;;
  if emergency then
    ret [ ("response", JStr EMERGENCY_ALERT);
          ("emergency", JBool true);
          ("symptom", JStr (symptom_name request)) ]%string
  else
  try_except
    (let structured_query := structured_query request in
     response_text <- generate_content
       (SYSTEM_PROMPT ++ (nl ++ nl ++ lit "Parent's Symptom Report: ") ++ structured_query) ;;
     raise_if (negb (truthy response_text)) (ValueError (lit "Empty response from API")) ;;
     let sanitized_response := sanitize_response response_text in
     ret [ ("response", JStr sanitized_response);
           ("emergency", JBool false);
           ("symptom", JStr (symptom_name request));
           ("severity", JStr (severity request));
           ("duration", JStr (duration request)) ]%string)
    (fun e =>
       raise {| status_code := 500; detail := lit "An error occurred: " ++ str_of e |}).

End Handler.

(** ** Vocabulary of the properties *)

(** [text] contains one of the keywords [kws] as a contiguous part. *)
Definition mentions (kws : list str) (text : str) : Prop :=
  exists w, In w kws /\ Substring w text.

Definition mentionsb (kws : list str) (text : str) : bool :=
  any (fun w => contains w text) kws.

(** Neither guard of lines 100-110 raises. *)
Definition passes_validation (request : SymptomRequest) : bool :=
  negb (negb (truthy (symptom_name request)) || (len (strip (symptom_name request)) <? 2)) &&
  negb (negb (truthy (description request)) || (len (strip (description request)) <? 5)).

(** The request is answered with a 400 error. *)
Definition is_400 (o : HTTPException + json) : bool :=
  match o with
  | inl e => N.eqb (status_code e) 400
  | inr _ => false
  end.

(** The request is answered with a 200 response. *)
Definition is_200 (o : HTTPException + json) : bool :=
  match o with
  | inl _ => false
  | inr _ => true
  end.

(** The three dict literals of the handler. *)
Definition refusal_response (request : SymptomRequest) : json :=
  [ ("response", JStr REFUSAL);
    ("emergency", JBool false);
    ("symptom", JStr (symptom_name request)) ]%string.

Definition emergency_response (request : SymptomRequest) : json :=
  [ ("response", JStr EMERGENCY_ALERT);
    ("emergency", JBool true);
    ("symptom", JStr (symptom_name request)) ]%string.

Definition model_response (request : SymptomRequest) (text : str) : json :=
  [ ("response", JStr text);
    ("emergency", JBool false);
    ("symptom", JStr (symptom_name request));
    ("severity", JStr (severity request));
    ("duration", JStr (duration request)) ]%string.

(** The same request with other [severity] and [duration] fields. *)
Definition with_severity_duration (request : SymptomRequest) (sev dur : str) : SymptomRequest :=
  {| symptom_name := symptom_name request;
     description := description request;
     severity := sev;
     duration := dur |}.

(** Whole-word membership, the reading the keyword checks do not implement:
    some whitespace-separated word of [text] is one of [kws]. *)
Definition has_keyword_word (kws : list str) (text : str) : bool :=
  any (fun word => any (Str.eqb word) kws) (split text).

(** [str.lower] restricted to the ASCII letters: the instance the concrete
    runs below are evaluated with. It agrees with Python's [str.lower] on
    every string of ASCII code points. *)
#[export] Instance ascii_lowercase : StrLower.
Proof.
  refine {| lower := map ascii_lower |}.
  - intro s. rewrite map_map. apply map_ext. intro c. unfold ascii_lower.
    destruct ((65 <=? c) && (c <=? 90))%N eqn:E; [|now rewrite E].
    apply andb_true_iff in E. destruct E as [E1 E2].
    apply N.leb_le in E1, E2.
    replace ((65 <=? c + 32) && (c + 32 <=? 90))%N with false; [reflexivity|].
    symmetry. apply andb_false_iff. right. apply N.leb_gt. lia.
  - reflexivity.
Defined.

(** ** Sample requests and model behaviours *)

Definition request_of (name desc sev dur : string) : SymptomRequest :=
  {| symptom_name := lit name; description := lit desc;
     severity := lit sev; duration := lit dur |}.

(** An emergency term and no allow-listed term. *)
Definition req_seizure : SymptomRequest :=
  request_of "seizure" "shaking badly" "severe" "1 hour".

(** An allow-listed term and an emergency term. *)
Definition req_unconscious : SymptomRequest :=
  request_of "Fever" "my child fell and is unconscious" "severe" "1 hour".

(** An allow-listed term, no emergency term. *)
Definition req_cough : SymptomRequest :=
  request_of "Cough" "my child has a dry cough" "mild" "2 days".

(** Both kinds of terms, and a symptom name of one character. *)
Definition req_short_name : SymptomRequest :=
  request_of "x" "child fall" "severe" "1 hour".

(** A symptom name of five blanks. *)
Definition req_blank_name : SymptomRequest :=
  request_of "     " "my child has a dry cough" "mild" "2 days".

Definition model_hydrate : GenerativeModel :=
  fun _ => Text (lit "Keep the child hydrated.").

Definition model_two_disclaimers : GenerativeModel :=
  fun _ => Text (lit "Disclaimer: a. Disclaimer: b.").

Definition model_empty : GenerativeModel := fun _ => Text [].

Definition model_down : GenerativeModel :=
  fun _ => Raises (lit "quota exceeded").

(** ** Further vocabulary *)

Definition is_model_call (ev : event) : bool :=
  match ev with
  | CallGenerateContent _ => true
  | _ => false
  end.

(** All four fields are ASCII text. *)
Definition ascii_request (request : SymptomRequest) : bool :=
  forallb isascii (symptom_name request) && forallb isascii (description request) &&
  forallb isascii (severity request) && forallb isascii (duration request).

(** The same request with text put around the symptom name and around the
    description. *)
Definition padded (request : SymptomRequest) (pre post pre' post' : str) : SymptomRequest :=
  {| symptom_name := pre ++ symptom_name request ++ post;
     description := pre' ++ description request ++ post';
     severity := severity request;
     duration := duration request |}.

(** ** Start of the module (lines 19-21) *)

(** [os.environ] once [load_dotenv()] has run: the variables that are set,
    with their values. *)
Definition environ : Type := list (string * str).

(** [os.getenv(key)]: [None] for a variable that is not set. *)
Fixpoint getenv (env : environ) (key : string) : option str :=
  match env with
  | [] => None
  | (k, v) :: env' => if String.eqb k key then Some v else getenv env' key
  end.

(** The [api_key] the client is configured with, or the [ValueError] that
    stops the import of the module. *)
Definition api_key (env : environ) : Exception + str :=
  match getenv env "GEMINI_API_KEY" with
  | Some key =>
      if negb (truthy key)
      then inl (ValueError (lit "GEMINI_API_KEY not found in environment variables"))
      else inr key
  | None => inl (ValueError (lit "GEMINI_API_KEY not found in environment variables"))
  end.

(** A model that answers the prompt of [req_cough] and fails on every
    other prompt. *)
Definition model_cough_only : GenerativeModel :=
  fun prompt =>
    if Str.eqb prompt (@prompt_of req_cough)
    then Text (lit "Keep the child hydrated.")
    else Raises (lit "quota exceeded").

(** A request whose only emergency term sits in the duration field. *)
Definition req_duration_104 : SymptomRequest :=
  request_of "Fever" "my child feels hot" "high" "104 since noon".

Arguments lit : simpl never.
Arguments SYSTEM_PROMPT : simpl never.
Arguments REFUSAL : simpl never.
Arguments EMERGENCY_ALERT : simpl never.
Arguments disclaimer : simpl never.
Arguments DISCLAIMER_MARK : simpl never.

(** ** Proof steps *)

(** The four entries every dict literal of the handler settles alike. *)
Ltac common_fields :=
  split; [eexists; reflexivity|];
  split; [eexists; reflexivity|];
  split; [reflexivity|];
  split; [reflexivity|].

(** ** Strings: containment, counting, stripping *)

Section StrFacts.

Lemma startswith_iff (w s : str) :
  startswith w s = true <-> exists post, s = w ++ post.
Proof.
  revert s. induction w as [|a w IH]; intro s; simpl.
  - split; [intros _; now exists s | reflexivity].
  - destruct s as [|b s].
    + split; [discriminate | intros [post H]; discriminate].
    + rewrite andb_true_iff, N.eqb_eq, IH. split.
      * intros [-> [post ->]]. now exists post.
      * intros [post H]. injection H as -> ->. split; [reflexivity | now exists post].
Qed.

Lemma contains_iff (w s : str) :
  contains w s = true <-> Substring w s.
Proof.
  unfold Substring. induction s as [|c s IH]; simpl.
  - rewrite orb_false_r, startswith_iff. split.
    + intros [post H]. now exists [], post.
    + intros [pre [post H]]. destruct pre; simpl in H.
      * now exists post.
      * discriminate.
  - rewrite orb_true_iff, startswith_iff, IH. split.
    + intros [[post H] | [pre [post H]]].
      * now exists [], post.
      * exists (c :: pre), post. simpl. now rewrite H.
    + intros [pre [post H]]. destruct pre as [|d pre]; simpl in H.
      * left. now exists post.
      * right. injection H as _ H. now exists pre, post.
Qed.

Lemma mentionsb_iff (kws : list str) (text : str) :
  mentionsb kws text = true <-> mentions kws text.
Proof.
  unfold mentionsb, mentions, any. rewrite existsb_exists.
  split; intros [w [Hin H]]; exists w; (split; [exact Hin|]); now apply contains_iff.
Qed.

Lemma mentionsb_false_iff (kws : list str) (text : str) :
  mentionsb kws text = false <-> ~ mentions kws text.
Proof.
  rewrite <- mentionsb_iff. destruct (mentionsb kws text); intuition congruence.
Qed.

Lemma occurrences_nil (w : str) : w <> [] -> occurrences w [] = 0.
Proof. destruct w; [easy | reflexivity]. Qed.

Lemma contains_false_occurrences (w s : str) :
  contains w s = false -> occurrences w s = 0.
Proof.
  induction s as [|c s IH]; simpl; intro H; apply orb_false_iff in H as [H1 H2];
    rewrite H1; [reflexivity | now rewrite IH].
Qed.

Lemma contains_true_occurrences (w s : str) :
  contains w s = true -> 1 <= occurrences w s.
Proof.
  induction s as [|c s IH]; simpl; intro H; apply orb_true_iff in H as [H | H].
  - rewrite H. lia.
  - discriminate.
  - rewrite H. lia.
  - specialize (IH H). lia.
Qed.

(** A word that does not hold the first code point of [d] cannot start in
    [x] and end in [d]. *)
Lemma startswith_boundary (w x d : str) (c : N) :
  ~ In c w -> startswith w (x ++ c :: d) = startswith w x.
Proof.
  revert x. induction w as [|a w IH]; intros x Hc; [reflexivity|].
  destruct x as [|b x]; simpl.
  - destruct (N.eqb_spec a c) as [->|_]; [|reflexivity].
    exfalso. apply Hc. now left.
  - rewrite IH; [reflexivity|]. intro H. apply Hc. now right.
Qed.

Lemma occurrences_app_boundary (w x d : str) (c : N) :
  w <> [] -> ~ In c w ->
  occurrences w (x ++ c :: d) = occurrences w x + occurrences w (c :: d).
Proof.
  intros Hw Hc. induction x as [|b x IH].
  - now rewrite (occurrences_nil w Hw).
  - change ((b :: x) ++ c :: d) with (b :: (x ++ c :: d)).
    cbn [occurrences]. rewrite IH.
    change (b :: x ++ c :: d) with ((b :: x) ++ c :: d).
    rewrite (startswith_boundary w (b :: x) d c Hc).
    cbn [occurrences]. lia.
Qed.

Lemma occurrences_skipn_step (w s : str) (k : nat) :
  w <> [] ->
  occurrences w (skipn k s) =
  (if startswith w (skipn k s) then 1 else 0) + occurrences w (skipn (S k) s).
Proof.
  intro Hw. revert s. induction k as [|k IH]; intro s.
  - destruct s as [|c s]; simpl.
    + destruct w; [easy | reflexivity].
    + reflexivity.
  - destruct s as [|c s].
    + simpl. destruct w; [easy | reflexivity].
    + change (skipn (S (S k)) (c :: s)) with (skipn (S k) s).
      change (skipn (S k) (c :: s)) with (skipn k s). apply IH.
Qed.

Lemma occurrences_skipn_le (w s : str) (k : nat) :
  w <> [] -> occurrences w (skipn k s) <= occurrences w s.
Proof.
  intro Hw. induction k as [|k IH]; [simpl; lia|].
  rewrite (occurrences_skipn_step w s k Hw) in IH. lia.
Qed.

(** If every start of [big] has a start of [small] [k] places later, [small]
    starts at least as often as [big]. *)
Lemma occurrences_shift (big small s : str) (k : nat) :
  small <> [] ->
  (forall u, startswith big u = true -> startswith small (skipn k u) = true) ->
  occurrences big s <= occurrences small (skipn k s).
Proof.
  intros Hs Hshift. induction s as [|c s IH].
  - simpl. destruct (startswith big []) eqn:E; [|lia].
    apply Hshift in E. rewrite skipn_nil in E.
    destruct small; [easy | discriminate].
  - cbn [occurrences]. destruct k as [|k].
    + simpl skipn in *. cbn [occurrences].
      destruct (startswith big (c :: s)) eqn:E.
      * rewrite (Hshift _ E). lia.
      * destruct (startswith small (c :: s)); lia.
    + change (skipn (S k) (c :: s)) with (skipn k s).
      rewrite (occurrences_skipn_step small s k Hs).
      destruct (startswith big (c :: s)) eqn:E.
      * apply Hshift in E. change (skipn (S k) (c :: s)) with (skipn k s) in E.
        rewrite E. lia.
      * destruct (startswith small (skipn k s)); lia.
Qed.

Lemma lstrip_all_space (s : str) :
  forallb isspace s = true -> lstrip s = [].
Proof.
  induction s as [|c s IH]; [reflexivity|]. simpl.
  intro H. apply andb_true_iff in H as [H1 H2]. now rewrite H1, IH.
Qed.

Lemma strip_all_space (s : str) :
  forallb isspace s = true -> strip s = [].
Proof.
  intro H. unfold strip. now rewrite (lstrip_all_space s H).
Qed.

Lemma Substring_trans (a b c : str) :
  Substring a b -> Substring b c -> Substring a c.
Proof.
  intros [p1 [q1 ->]] [p2 [q2 ->]].
  exists (p2 ++ p1), (q1 ++ q2). now rewrite !app_assoc.
Qed.

Lemma eqb_eq (s t : str) : Str.eqb s t = true -> s = t.
Proof.
  revert t. induction s as [|a s IH]; destruct t as [|b t]; simpl;
    try discriminate; [reflexivity|].
  intro H. apply andb_true_iff in H as [H1 H2].
  apply N.eqb_eq in H1. now rewrite H1, (IH t H2).
Qed.

Lemma In_keyword (kws : list str) (w : str) :
  existsb (Str.eqb w) kws = true -> In w kws.
Proof.
  intro H. apply existsb_exists in H as [x [Hin Heq]].
  apply eqb_eq in Heq. now subst.
Qed.

End StrFacts.

(** ** The pipeline of [ask_symptom] *)

Section Pipeline.

Context {L : StrLower}.
Variable model : GenerativeModel.

Lemma ask_symptom_rejects_name (req : SymptomRequest) :
  negb (truthy (symptom_name req)) || (len (strip (symptom_name req)) <? 2) = true ->
  ask_symptom model req =
  ([], inl {| status_code := 400; detail := lit "Please provide a symptom name" |}).
Proof. intro H. unfold ask_symptom. now rewrite H. Qed.

Lemma ask_symptom_rejects_description (req : SymptomRequest) :
  negb (truthy (symptom_name req)) || (len (strip (symptom_name req)) <? 2) = false ->
  negb (truthy (description req)) || (len (strip (description req)) <? 5) = true ->
  ask_symptom model req =
  ([], inl {| status_code := 400; detail := lit "Please provide a detailed description" |}).
Proof. intros H1 H2. unfold ask_symptom. now rewrite H1, H2. Qed.

(** Past the two guards the handler is a cascade of three decisions. *)
Lemma ask_symptom_valid (req : SymptomRequest) :
  passes_validation req = true ->
  ask_symptom model req =
  let q := combined_query req in
  if negb (is_child_health_query q)
  then ([CallIsChildHealthQuery q], inr (refusal_response req))
  else if is_emergency q
  then ([CallIsChildHealthQuery q; CallIsEmergency q], inr (emergency_response req))
  else
    let t := [CallIsChildHealthQuery q; CallIsEmergency q;
              CallGenerateContent (prompt_of req)] in
    match model (prompt_of req) with
    | Text [] =>
        (t, inl {| status_code := 500;
                   detail := lit "An error occurred: " ++ lit "Empty response from API" |})
    | Text (c :: r) => (t, inr (model_response req (sanitize_response (c :: r))))
    | Raises msg =>
        (t, inl {| status_code := 500; detail := lit "An error occurred: " ++ msg |})
    end.
Proof.
  intro H. unfold passes_validation in H.
  apply andb_true_iff in H as [H1 H2]. apply negb_true_iff in H1, H2.
  unfold ask_symptom. rewrite H1, H2.
  cbv [raise_if bind ret call raise try_except generate_content].
  destruct (is_child_health_query (combined_query req)); [|reflexivity].
  destruct (is_emergency (combined_query req)); [reflexivity|].
  cbv [negb]. fold (prompt_of req).
  destruct (model (prompt_of req)) as [[|c r]|msg]; reflexivity.
Qed.

Lemma is_child_health_query_combined (req : SymptomRequest) :
  is_child_health_query (combined_query req) =
  mentionsb ALLOWED_KEYWORDS (combined_query req).
Proof.
  unfold is_child_health_query, combined_query, mentionsb.
  now rewrite lower_idempotent.
Qed.

Lemma is_emergency_combined (req : SymptomRequest) :
  is_emergency (combined_query req) =
  mentionsb EMERGENCY_KEYWORDS (combined_query req).
Proof.
  unfold is_emergency, combined_query, mentionsb.
  now rewrite lower_idempotent.
Qed.

(** The calls of a request are an initial part of: allow-list check,
    emergency check, model call. *)
Lemma trace_in_order (req : SymptomRequest) :
  exists k,
    trace (ask_symptom model req) =
    firstn k [CallIsChildHealthQuery (combined_query req);
              CallIsEmergency (combined_query req);
              CallGenerateContent (prompt_of req)].
Proof.
  destruct (passes_validation req) eqn:Hv.
  - rewrite (ask_symptom_valid req Hv). cbv zeta.
    destruct (is_child_health_query (combined_query req)); [|now exists 1].
    destruct (is_emergency (combined_query req)); [now exists 2|].
    exists 3. destruct (model (prompt_of req)) as [[|c r]|msg]; reflexivity.
  - exists 0. unfold passes_validation in Hv. unfold ask_symptom.
    destruct (negb (truthy (symptom_name req)) || (len (strip (symptom_name req)) <? 2));
      [reflexivity|].
    simpl in Hv. apply negb_false_iff in Hv. now rewrite Hv.
Qed.

End Pipeline.

(** ** The two short-circuits *)

Section ShortCircuits.

Context {L : StrLower}.

(** A request that fails validation is answered with one of the two 400
    errors before anything is called, whatever the model. *)
Lemma ask_symptom_rejected (req : SymptomRequest) :
  passes_validation req = false ->
  exists msg,
    (msg = lit "Please provide a symptom name" \/
     msg = lit "Please provide a detailed description") /\
    forall model, ask_symptom model req = ([], inl {| status_code := 400; detail := msg |}).
Proof.
  intro H. unfold passes_validation in H.
  destruct (negb (truthy (symptom_name req)) || (len (strip (symptom_name req)) <? 2)) eqn:H1.
  - exists (lit "Please provide a symptom name"). split; [now left|].
    intro model. now apply ask_symptom_rejects_name.
  - simpl in H. apply negb_false_iff in H.
    exists (lit "Please provide a detailed description"). split; [now right|].
    intro model. now apply ask_symptom_rejects_description.
Qed.

(** C1 (amended): a request that passes validation and whose lowercased
    concatenation of the four fields contains an allow-listed keyword and an
    emergency keyword is answered with the fixed emergency alert and
    emergency = true. *)
Theorem C1_emergency_alert (model : GenerativeModel) (req : SymptomRequest) :
  passes_validation req = true ->
  mentions ALLOWED_KEYWORDS (combined_query req) ->
  mentions EMERGENCY_KEYWORDS (combined_query req) ->
  outcome (ask_symptom model req) =
  inr [ ("response", JStr EMERGENCY_ALERT);
        ("emergency", JBool true);
        ("symptom", JStr (symptom_name req)) ]%string.
Proof.
  intros Hv Ha He. rewrite (ask_symptom_valid model req Hv). cbv zeta.
  apply mentionsb_iff in Ha, He.
  rewrite is_child_health_query_combined, Ha, is_emergency_combined, He.
  reflexivity.
Qed.

(** C2: the allow-list check comes first. A request that passes validation
    and whose lowercased concatenation contains no allow-listed keyword gets
    the refusal with emergency = false, and the emergency check is never
    reached, whether or not the text contains an emergency keyword. *)
Theorem C2_allow_list_before_emergency (model : GenerativeModel) (req : SymptomRequest) :
  passes_validation req = true ->
  ~ mentions ALLOWED_KEYWORDS (combined_query req) ->
  outcome (ask_symptom model req) =
    inr [ ("response", JStr REFUSAL);
          ("emergency", JBool false);
          ("symptom", JStr (symptom_name req)) ]%string /\
  trace (ask_symptom model req) = [CallIsChildHealthQuery (combined_query req)].
Proof.
  intros Hv Ha. rewrite (ask_symptom_valid model req Hv). cbv zeta.
  apply mentionsb_false_iff in Ha.
  rewrite is_child_health_query_combined, Ha. now split.
Qed.

(** C3: a request that passes validation and whose lowercased concatenation
    contains no allow-listed keyword gets the fixed refusal message with
    emergency = false; the model is not called, and the answer is the same
    under every model. *)
Theorem C3_refusal_without_model (model : GenerativeModel) (req : SymptomRequest) :
  passes_validation req = true ->
  ~ mentions ALLOWED_KEYWORDS (combined_query req) ->
  outcome (ask_symptom model req) =
    inr [ ("response",
           JStr (lit "I'm specifically designed to help with child health questions. This question appears unrelated to child health."));
          ("emergency", JBool false);
          ("symptom", JStr (symptom_name req)) ]%string /\
  (forall prompt, ~ In (CallGenerateContent prompt) (trace (ask_symptom model req))) /\
  (forall model', ask_symptom model' req = ask_symptom model req).
Proof.
  intros Hv Ha. apply mentionsb_false_iff in Ha.
  assert (E : forall m, ask_symptom m req =
            ([CallIsChildHealthQuery (combined_query req)], inr (refusal_response req))).
  { intro m. rewrite (ask_symptom_valid m req Hv). cbv zeta.
    now rewrite is_child_health_query_combined, Ha. }
  rewrite (E model). repeat split.
  - intros prompt [H | []]. discriminate.
  - intro model'. apply E.
Qed.

(** C7 (amended): when the lowercased combined text contains both an
    allow-listed and an emergency keyword, the answer is the same under any
    two models and no model call is made; for a request that passes
    validation that answer is the fixed emergency alert. *)
Theorem C7_emergency_independent_of_model (req : SymptomRequest) :
  mentions ALLOWED_KEYWORDS (combined_query req) ->
  mentions EMERGENCY_KEYWORDS (combined_query req) ->
  (forall m1 m2, ask_symptom m1 req = ask_symptom m2 req) /\
  (forall m prompt, ~ In (CallGenerateContent prompt) (trace (ask_symptom m req))) /\
  (passes_validation req = true ->
   forall m, outcome (ask_symptom m req) =
     inr [ ("response", JStr EMERGENCY_ALERT);
           ("emergency", JBool true);
           ("symptom", JStr (symptom_name req)) ]%string).
Proof.
  intros Ha He. apply mentionsb_iff in Ha, He.
  destruct (passes_validation req) eqn:Hv.
  - assert (E : forall m, ask_symptom m req =
              ([CallIsChildHealthQuery (combined_query req);
                CallIsEmergency (combined_query req)], inr (emergency_response req))).
    { intro m. rewrite (ask_symptom_valid m req Hv). cbv zeta.
      now rewrite is_child_health_query_combined, Ha, is_emergency_combined, He. }
    repeat split.
    + intros m1 m2. now rewrite (E m1), (E m2).
    + intros m prompt. rewrite (E m). intros [H | [H | []]]; discriminate.
    + intros _ m. now rewrite (E m).
  - destruct (ask_symptom_rejected req Hv) as [msg [_ E]].
    repeat split.
    + intros m1 m2. now rewrite (E m1), (E m2).
    + intros m prompt. rewrite (E m). intros [].
    + discriminate.
Qed.

End ShortCircuits.

(** C1, as stated, fails: an emergency keyword without an allow-listed one
    is answered with the refusal and emergency = false. *)
Lemma C1_emergency_keyword_refused :
  passes_validation req_seizure = true /\
  mentions EMERGENCY_KEYWORDS (combined_query req_seizure) /\
  outcome (ask_symptom model_hydrate req_seizure) =
    inr [ ("response", JStr REFUSAL);
          ("emergency", JBool false);
          ("symptom", JStr (lit "seizure")) ]%string /\
  REFUSAL <> EMERGENCY_ALERT.
Proof.
  split; [reflexivity|]. split; [apply mentionsb_iff; reflexivity|].
  split; [reflexivity | discriminate].
Qed.

(** C1 (amended) at [req_unconscious]. *)
Lemma C1_emergency_alert_witness :
  outcome (ask_symptom model_hydrate req_unconscious) =
  inr [ ("response", JStr EMERGENCY_ALERT);
        ("emergency", JBool true);
        ("symptom", JStr (lit "Fever")) ]%string.
Proof.
  apply (@C1_emergency_alert ascii_lowercase model_hydrate req_unconscious).
  - reflexivity.
  - apply mentionsb_iff. reflexivity.
  - apply mentionsb_iff. reflexivity.
Defined.

(** C2 at [req_seizure], whose text holds the emergency term "seizure". *)
Lemma C2_allow_list_before_emergency_witness :
  mentions EMERGENCY_KEYWORDS (combined_query req_seizure) /\
  outcome (ask_symptom model_hydrate req_seizure) =
    inr [ ("response", JStr REFUSAL);
          ("emergency", JBool false);
          ("symptom", JStr (lit "seizure")) ]%string /\
  trace (ask_symptom model_hydrate req_seizure) =
    [CallIsChildHealthQuery (combined_query req_seizure)].
Proof.
  split; [apply mentionsb_iff; reflexivity|].
  apply (@C2_allow_list_before_emergency ascii_lowercase model_hydrate req_seizure).
  - reflexivity.
  - apply mentionsb_false_iff. reflexivity.
Defined.

(** C3 at [req_seizure]: a model that is down changes nothing. *)
Lemma C3_refusal_without_model_witness :
  forallb (fun ev => match ev with CallGenerateContent _ => false | _ => true end)
    (trace (ask_symptom model_down req_seizure)) = true /\
  ask_symptom model_hydrate req_seizure = ask_symptom model_down req_seizure.
Proof.
  split; [reflexivity|].
  apply (@C3_refusal_without_model ascii_lowercase model_down req_seizure).
  - reflexivity.
  - apply mentionsb_false_iff. reflexivity.
Defined.

(** C7, as stated, fails: with both kinds of keyword in the text but a
    symptom name of one character the answer is the 400 error, not the
    emergency alert. *)
Lemma C7_short_name_is_rejected :
  mentions ALLOWED_KEYWORDS (combined_query req_short_name) /\
  mentions EMERGENCY_KEYWORDS (combined_query req_short_name) /\
  ask_symptom model_hydrate req_short_name =
    ([], inl {| status_code := 400; detail := lit "Please provide a symptom name" |}) /\
  ask_symptom model_down req_short_name =
    ([], inl {| status_code := 400; detail := lit "Please provide a symptom name" |}).
Proof.
  split; [apply mentionsb_iff; reflexivity|].
  split; [apply mentionsb_iff; reflexivity|].
  split; reflexivity.
Qed.

(** C7 (amended) at [req_unconscious], under two models. *)
Lemma C7_emergency_independent_of_model_witness :
  ask_symptom model_hydrate req_unconscious = ask_symptom model_down req_unconscious /\
  outcome (ask_symptom model_down req_unconscious) =
    inr [ ("response", JStr EMERGENCY_ALERT);
          ("emergency", JBool true);
          ("symptom", JStr (lit "Fever")) ]%string.
Proof.
  assert (Ha : mentions ALLOWED_KEYWORDS (combined_query req_unconscious))
    by (apply mentionsb_iff; reflexivity).
  assert (He : mentions EMERGENCY_KEYWORDS (combined_query req_unconscious))
    by (apply mentionsb_iff; reflexivity).
  destruct (@C7_emergency_independent_of_model ascii_lowercase req_unconscious Ha He)
    as [Hsame [_ Halert]].
  split; [apply Hsame | apply Halert; reflexivity].
Defined.

(** ** Input validation *)

Section Validation.

Context {L : StrLower}.
Variable model : GenerativeModel.

(** The emptiness test of a guard is subsumed by its length test. *)
Lemma guard_is_length_test (s : str) (n : nat) :
  1 <= n ->
  negb (truthy s) || (len (strip s) <? n) = (len (strip s) <? n).
Proof.
  intro Hn. destruct s as [|c s]; [|reflexivity].
  simpl. symmetry. apply Nat.ltb_lt. lia.
Qed.

Lemma passes_validation_iff (req : SymptomRequest) :
  passes_validation req = true <->
  2 <= len (strip (symptom_name req)) /\ 5 <= len (strip (description req)).
Proof.
  unfold passes_validation.
  rewrite !guard_is_length_test by lia.
  rewrite andb_true_iff, !negb_true_iff, !Nat.ltb_ge. reflexivity.
Qed.

Lemma is_400_iff_rejected (req : SymptomRequest) :
  is_400 (outcome (ask_symptom model req)) = negb (passes_validation req).
Proof.
  destruct (passes_validation req) eqn:Hv.
  - rewrite (ask_symptom_valid model req Hv). cbv zeta.
    destruct (negb _); [reflexivity|].
    destruct (is_emergency _); [reflexivity|].
    destruct (model (prompt_of req)) as [[|c r]|msg]; reflexivity.
  - destruct (ask_symptom_rejected req Hv) as [msg [_ E]]. now rewrite E.
Qed.

(** C5: a request whose symptom name or description is empty or too short
    is answered with a 400 error carrying one of the two messages, before
    any keyword check or model call; a request that meets both minimum
    lengths is not answered with a 400. *)
Theorem C5_validation_errors (req : SymptomRequest) :
  (symptom_name req = [] \/ len (strip (symptom_name req)) < 2 \/
   description req = [] \/ len (strip (description req)) < 5 ->
   exists msg,
     (msg = lit "Please provide a symptom name" \/
      msg = lit "Please provide a detailed description") /\
     outcome (ask_symptom model req) = inl {| status_code := 400; detail := msg |} /\
     trace (ask_symptom model req) = []) /\
  (2 <= len (strip (symptom_name req)) -> 5 <= len (strip (description req)) ->
   is_400 (outcome (ask_symptom model req)) = false).
Proof.
  split.
  - intro H.
    assert (Hv : passes_validation req = false).
    { destruct (passes_validation req) eqn:Hv; [|reflexivity].
      apply passes_validation_iff in Hv as [H2 H5].
      destruct H as [H | [H | [H | H]]]; try lia; rewrite H in *; simpl in *; lia. }
    destruct (ask_symptom_rejected req Hv) as [msg [Hmsg E]].
    exists msg. rewrite (E model). now repeat split.
  - intros H2 H5. rewrite is_400_iff_rejected.
    apply negb_false_iff, passes_validation_iff. now split.
Qed.

(** C10: the thresholds bear on the stripped values. The request is not
    answered with a 400 exactly when the stripped symptom name has at least
    2 code points and the stripped description at least 5; a field of
    whitespace only is rejected with 400 whatever its length; severity and
    duration play no part in the decision. *)
Theorem C10_validation_thresholds (req : SymptomRequest) :
  (is_400 (outcome (ask_symptom model req)) = false <->
   2 <= len (strip (symptom_name req)) /\ 5 <= len (strip (description req))) /\
  (passes_validation req = true <->
   is_400 (outcome (ask_symptom model req)) = false) /\
  (forallb isspace (symptom_name req) = true \/
   forallb isspace (description req) = true ->
   is_400 (outcome (ask_symptom model req)) = true) /\
  (forall sev dur,
     is_400 (outcome (ask_symptom model (with_severity_duration req sev dur))) =
     is_400 (outcome (ask_symptom model req))).
Proof.
  split; [|split; [|split]].
  - rewrite is_400_iff_rejected, negb_false_iff. apply passes_validation_iff.
  - now rewrite is_400_iff_rejected, negb_false_iff.
  - intro H. rewrite is_400_iff_rejected. apply negb_true_iff.
    destruct (passes_validation req) eqn:Hv; [|reflexivity].
    apply passes_validation_iff in Hv as [H2 H5].
    destruct H as [H | H]; rewrite (strip_all_space _ H) in *; simpl in *; lia.
  - intros sev dur. rewrite !is_400_iff_rejected. reflexivity.
Qed.

End Validation.

(** C5 at [req_short_name], rejected, and at [req_cough], accepted. *)
Lemma C5_validation_errors_witness :
  (exists msg,
     outcome (ask_symptom model_hydrate req_short_name) =
       inl {| status_code := 400; detail := msg |} /\
     trace (ask_symptom model_hydrate req_short_name) = []) /\
  is_400 (outcome (ask_symptom model_hydrate req_cough)) = false.
Proof.
  destruct (@C5_validation_errors ascii_lowercase model_hydrate req_short_name)
    as [Hreject _].
  destruct (@C5_validation_errors ascii_lowercase model_hydrate req_cough)
    as [_ Haccept].
  split.
  - destruct Hreject as [msg [_ H]]; [right; left; vm_compute; lia|].
    now exists msg.
  - apply Haccept; vm_compute; lia.
Defined.

(** C10 at a symptom name of five blanks, and at [req_cough] with empty
    severity and duration. *)
Lemma C10_validation_thresholds_witness :
  len (symptom_name req_blank_name) = 5 /\
  is_400 (outcome (ask_symptom model_hydrate req_blank_name)) = true /\
  is_400 (outcome (ask_symptom model_hydrate
            (with_severity_duration req_cough [] []))) = false.
Proof.
  destruct (@C10_validation_thresholds ascii_lowercase model_hydrate req_blank_name)
    as [_ [_ [Hblank _]]].
  destruct (@C10_validation_thresholds ascii_lowercase model_hydrate req_cough)
    as [Hiff [_ [_ Hsame]]].
  split; [reflexivity|]. split.
  - apply Hblank. left. reflexivity.
  - rewrite Hsame. apply Hiff. vm_compute. lia.
Defined.

(** ** The model call *)

Section ModelCall.

Context {L : StrLower}.
Variable model : GenerativeModel.

(** The model is called only past both filters, and with the prompt built
    from the request. *)
Lemma model_call_reached (req : SymptomRequest) (prompt : str) :
  In (CallGenerateContent prompt) (trace (ask_symptom model req)) ->
  passes_validation req = true /\
  is_child_health_query (combined_query req) = true /\
  is_emergency (combined_query req) = false /\
  prompt = prompt_of req.
Proof.
  intro H. destruct (passes_validation req) eqn:Hv.
  - rewrite (ask_symptom_valid model req Hv) in H. cbv zeta in H.
    destruct (is_child_health_query (combined_query req)); simpl in H.
    + destruct (is_emergency (combined_query req)); simpl in H.
      * destruct H as [H | [H | []]]; discriminate.
      * assert (Hp : prompt = prompt_of req).
        { destruct (model (prompt_of req)) as [[|c r]|msg]; simpl in H;
            destruct H as [H | [H | [H | []]]]; try discriminate;
            now injection H. }
        now repeat split.
    + destruct H as [H | []]. discriminate.
  - destruct (ask_symptom_rejected req Hv) as [msg [_ E]].
    rewrite E in H. destruct H.
Qed.

Lemma ask_symptom_model_branch (req : SymptomRequest) :
  passes_validation req = true ->
  is_child_health_query (combined_query req) = true ->
  is_emergency (combined_query req) = false ->
  ask_symptom model req =
  let q := combined_query req in
  let t := [CallIsChildHealthQuery q; CallIsEmergency q;
            CallGenerateContent (prompt_of req)] in
  match model (prompt_of req) with
  | Text [] =>
      (t, inl {| status_code := 500;
                 detail := lit "An error occurred: " ++ lit "Empty response from API" |})
  | Text (c :: r) => (t, inr (model_response req (sanitize_response (c :: r))))
  | Raises msg =>
      (t, inl {| status_code := 500; detail := lit "An error occurred: " ++ msg |})
  end.
Proof.
  intros Hv Ha He. rewrite (ask_symptom_valid model req Hv). cbv zeta.
  now rewrite Ha, He.
Qed.

(** The word "Disclaimer" cannot start in a reply and end in the appended
    disclaimer, which opens with a line feed. *)
Lemma mark_counts_after_append (t : str) :
  occurrences DISCLAIMER_MARK (t ++ disclaimer) = occurrences DISCLAIMER_MARK t + 1.
Proof.
  assert (Hd : disclaimer = 10%N :: tl disclaimer) by (vm_compute; reflexivity).
  rewrite Hd, occurrences_app_boundary.
  - apply f_equal. vm_compute. reflexivity.
  - discriminate.
  - vm_compute. intuition discriminate.
Qed.

(** Each start of the fixed disclaimer has the word "Disclaimer" five code
    points later. *)
Lemma disclaimer_holds_mark (u : str) :
  startswith disclaimer u = true -> startswith DISCLAIMER_MARK (skipn 5 u) = true.
Proof.
  intro H. apply startswith_iff in H as [post ->]. vm_compute. reflexivity.
Qed.

Lemma disclaimer_counts_after_append (t : str) :
  contains DISCLAIMER_MARK t = false ->
  occurrences disclaimer (t ++ disclaimer) = 1.
Proof.
  intro H.
  assert (Hmark : occurrences DISCLAIMER_MARK (t ++ disclaimer) = 1).
  { rewrite mark_counts_after_append, (contains_false_occurrences _ _ H). reflexivity. }
  assert (Hle : occurrences disclaimer (t ++ disclaimer) <= 1).
  { rewrite <- Hmark.
    etransitivity; [|apply (occurrences_skipn_le DISCLAIMER_MARK _ 5); discriminate].
    apply occurrences_shift; [discriminate | apply disclaimer_holds_mark]. }
  assert (Hge : 1 <= occurrences disclaimer (t ++ disclaimer)).
  { apply contains_true_occurrences, contains_iff.
    exists t, []. now rewrite app_nil_r. }
  lia.
Qed.

(** What [sanitize_response] guarantees about the word "Disclaimer". *)
Lemma sanitize_response_marked (t : str) :
  1 <= occurrences DISCLAIMER_MARK (sanitize_response t).
Proof.
  unfold sanitize_response. destruct (contains DISCLAIMER_MARK t) eqn:E; simpl.
  - now apply contains_true_occurrences.
  - rewrite mark_counts_after_append. lia.
Qed.

(** C4 (amended): for a valid child-health query answered by a non-empty
    model reply, the response text is the reply passed through
    [sanitize_response]: the word "Disclaimer" occurs in it at least once;
    when the reply lacks the word, the text is the reply followed by the
    fixed disclaimer, and both the word and the fixed disclaimer occur in it
    exactly once; when the reply has the word, the text is the reply as it
    came. *)
Theorem C4_disclaimer_appended_if_absent (req : SymptomRequest) (reply : str) :
  passes_validation req = true ->
  mentions ALLOWED_KEYWORDS (combined_query req) ->
  ~ mentions EMERGENCY_KEYWORDS (combined_query req) ->
  model (prompt_of req) = Text reply ->
  reply <> [] ->
  exists text,
    outcome (ask_symptom model req) =
      inr [ ("response", JStr text);
            ("emergency", JBool false);
            ("symptom", JStr (symptom_name req));
            ("severity", JStr (severity req));
            ("duration", JStr (duration req)) ]%string /\
    1 <= occurrences (lit "Disclaimer") text /\
    (contains (lit "Disclaimer") reply = false ->
     text = reply ++ disclaimer /\
     occurrences (lit "Disclaimer") text = 1 /\
     occurrences disclaimer text = 1) /\
    (contains (lit "Disclaimer") reply = true -> text = reply).
Proof.
  intros Hv Ha He Hm Hne.
  apply mentionsb_iff in Ha. apply mentionsb_false_iff in He.
  rewrite <- is_child_health_query_combined in Ha.
  rewrite <- is_emergency_combined in He.
  assert (Ho : outcome (ask_symptom model req) =
                 inr (model_response req (sanitize_response reply))).
  { rewrite (ask_symptom_model_branch req Hv Ha He). cbv zeta. rewrite Hm.
    destruct reply; [contradiction | reflexivity]. }
  exists (sanitize_response reply).
  split; [exact Ho|]. split; [apply sanitize_response_marked|].
  change (lit "Disclaimer") with DISCLAIMER_MARK. unfold sanitize_response.
  split; intro H; rewrite H; cbn [negb].
  - split; [reflexivity|]. split.
    + rewrite mark_counts_after_append, (contains_false_occurrences _ _ H). reflexivity.
    + now apply disclaimer_counts_after_append.
  - reflexivity.
Qed.

(** C6: when the model call a request reaches fails, by an exception or by
    an empty reply, the request is answered with a 500 error whose detail
    ends with the error message, and with no 200 response. *)
Theorem C6_model_failure_is_500 (req : SymptomRequest) (prompt msg : str) :
  In (CallGenerateContent prompt) (trace (ask_symptom model req)) ->
  model prompt = Raises msg \/
  (model prompt = Text [] /\ msg = lit "Empty response from API") ->
  outcome (ask_symptom model req) =
    inl {| status_code := 500; detail := lit "An error occurred: " ++ msg |} /\
  Substring msg (lit "An error occurred: " ++ msg) /\
  is_200 (outcome (ask_symptom model req)) = false.
Proof.
  intros Hcall Hfail.
  apply model_call_reached in Hcall as [Hv [Ha [He ->]]].
  rewrite (ask_symptom_model_branch req Hv Ha He). cbv zeta.
  assert (Hsub : Substring msg (lit "An error occurred: " ++ msg)).
  { exists (lit "An error occurred: "), []. now rewrite app_nil_r. }
  destruct Hfail as [Hm | [Hm ->]]; rewrite Hm; now repeat split.
Qed.

(** C8 (amended): every 200 response holds the response text under
    "response", the emergency boolean under "emergency" and the submitted
    symptom name under "symptom", and has no "description" entry; a response
    built from a model reply also holds the submitted severity and
    duration. *)
Theorem C8_response_fields (req : SymptomRequest) (resp : json) :
  outcome (ask_symptom model req) = inr resp ->
  (exists text, get "response" resp = Some (JStr text)) /\
  (exists flag, get "emergency" resp = Some (JBool flag)) /\
  get "symptom" resp = Some (JStr (symptom_name req)) /\
  get "description" resp = None /\
  ((exists prompt, In (CallGenerateContent prompt) (trace (ask_symptom model req))) ->
   get "severity" resp = Some (JStr (severity req)) /\
   get "duration" resp = Some (JStr (duration req))).
Proof.
  destruct (passes_validation req) eqn:Hv.
  - rewrite (ask_symptom_valid model req Hv). cbv zeta.
    destruct (is_child_health_query (combined_query req)); simpl.
    + destruct (is_emergency (combined_query req)); simpl.
      * intro H. injection H as <-. common_fields.
        intros [prompt [H | [H | []]]]; discriminate.
      * destruct (model (prompt_of req)) as [[|c r]|msg]; simpl; intro H;
          try discriminate.
        injection H as <-. common_fields. intros _. now split.
    + intro H. injection H as <-. common_fields.
      intros [prompt [H | []]]. discriminate.
  - destruct (ask_symptom_rejected req Hv) as [msg [_ E]]. rewrite E. discriminate.
Qed.

End ModelCall.

(** C4, as stated, fails: a reply that says "Disclaimer" twice is returned as
    it came, so the word is there twice and the fixed disclaimer not at
    all. *)
Lemma C4_reply_with_two_disclaimers :
  passes_validation req_cough = true /\
  mentions ALLOWED_KEYWORDS (combined_query req_cough) /\
  ~ mentions EMERGENCY_KEYWORDS (combined_query req_cough) /\
  model_two_disclaimers (prompt_of req_cough) = Text (lit "Disclaimer: a. Disclaimer: b.") /\
  outcome (ask_symptom model_two_disclaimers req_cough) =
    inr [ ("response", JStr (lit "Disclaimer: a. Disclaimer: b."));
          ("emergency", JBool false);
          ("symptom", JStr (lit "Cough"));
          ("severity", JStr (lit "mild"));
          ("duration", JStr (lit "2 days")) ]%string /\
  occurrences (lit "Disclaimer") (lit "Disclaimer: a. Disclaimer: b.") = 2 /\
  occurrences disclaimer (lit "Disclaimer: a. Disclaimer: b.") = 0.
Proof.
  split; [reflexivity|]. split; [apply mentionsb_iff; reflexivity|].
  split; [apply mentionsb_false_iff; reflexivity|].
  repeat split; reflexivity.
Qed.

(** C4 (amended) at [req_cough] and a reply without the word. *)
Lemma C4_disclaimer_appended_if_absent_witness :
  exists text,
    outcome (ask_symptom model_hydrate req_cough) =
      inr [ ("response", JStr text);
            ("emergency", JBool false);
            ("symptom", JStr (lit "Cough"));
            ("severity", JStr (lit "mild"));
            ("duration", JStr (lit "2 days")) ]%string /\
    text = lit "Keep the child hydrated." ++ disclaimer /\
    occurrences (lit "Disclaimer") text = 1 /\
    occurrences disclaimer text = 1.
Proof.
  destruct (@C4_disclaimer_appended_if_absent ascii_lowercase model_hydrate req_cough
              (lit "Keep the child hydrated."))
    as [text [Ho [_ [Habsent _]]]].
  - reflexivity.
  - apply mentionsb_iff. reflexivity.
  - apply mentionsb_false_iff. reflexivity.
  - reflexivity.
  - discriminate.
  - exists text. split; [exact Ho|]. apply Habsent. reflexivity.
Defined.

(** C6 at [req_cough], under a model that raises and one that is silent. *)
Lemma C6_model_failure_is_500_witness :
  outcome (ask_symptom model_down req_cough) =
    inl {| status_code := 500; detail := lit "An error occurred: quota exceeded" |} /\
  outcome (ask_symptom model_empty req_cough) =
    inl {| status_code := 500;
           detail := lit "An error occurred: Empty response from API" |}.
Proof.
  split.
  - apply (@C6_model_failure_is_500 ascii_lowercase model_down req_cough
             (prompt_of req_cough) (lit "quota exceeded")).
    + vm_compute. right. right. left. reflexivity.
    + left. reflexivity.
  - apply (@C6_model_failure_is_500 ascii_lowercase model_empty req_cough
             (prompt_of req_cough) (lit "Empty response from API")).
    + vm_compute. right. right. left. reflexivity.
    + right. split; reflexivity.
Defined.

(** C8, as stated, fails: the fullest response, the one built from a model
    reply, has no entry for the description, and the refusal holds the
    symptom name alone. *)
Lemma C8_description_not_echoed :
  outcome (ask_symptom model_hydrate req_cough) =
    inr (model_response req_cough (lit "Keep the child hydrated." ++ disclaimer)) /\
  keys (model_response req_cough (lit "Keep the child hydrated." ++ disclaimer)) =
    [ "response"; "emergency"; "symptom"; "severity"; "duration" ]%string /\
  ~ In (JStr (description req_cough))
       (map snd (model_response req_cough (lit "Keep the child hydrated." ++ disclaimer))) /\
  outcome (ask_symptom model_hydrate req_seizure) = inr (refusal_response req_seizure) /\
  keys (refusal_response req_seizure) = [ "response"; "emergency"; "symptom" ]%string.
Proof.
  split; [reflexivity|]. split; [reflexivity|]. split.
  - intros [H | [H | [H | [H | [H | []]]]]]; vm_compute in H; discriminate.
  - split; reflexivity.
Qed.

(** C8 (amended) at [req_cough] and the response of [model_hydrate]. *)
Lemma C8_response_fields_witness :
  get "symptom" (model_response req_cough (lit "Keep the child hydrated." ++ disclaimer)) =
    Some (JStr (lit "Cough")) /\
  get "severity" (model_response req_cough (lit "Keep the child hydrated." ++ disclaimer)) =
    Some (JStr (lit "mild")) /\
  get "duration" (model_response req_cough (lit "Keep the child hydrated." ++ disclaimer)) =
    Some (JStr (lit "2 days")).
Proof.
  destruct (@C8_response_fields ascii_lowercase model_hydrate req_cough
              (model_response req_cough (lit "Keep the child hydrated." ++ disclaimer)))
    as [_ [_ [Hsymptom [_ Hmore]]]].
  - reflexivity.
  - split; [exact Hsymptom|]. apply Hmore.
    exists (prompt_of req_cough). vm_compute. right. right. left. reflexivity.
Defined.

(** ** The keyword checks *)

Section KeywordChecks.

Context {L : StrLower}.

(** C9: both checks test containment of a keyword as a contiguous part of
    the lowercased text, not membership of a word. So a text with "kidney"
    passes the allow-list check through "kid", and one with "falling" the
    emergency check through "fall", although no word of "kidney pain" or of
    "rain is falling" is a keyword. *)
Theorem C9_checks_are_substring_tests (text : str) :
  (is_child_health_query text = true <->
   exists w, In w ALLOWED_KEYWORDS /\ Substring w (lower text)) /\
  (is_emergency text = true <->
   exists w, In w EMERGENCY_KEYWORDS /\ Substring w (lower text)) /\
  (Substring (lit "kidney") (lower text) -> is_child_health_query text = true) /\
  (Substring (lit "falling") (lower text) -> is_emergency text = true) /\
  (has_keyword_word ALLOWED_KEYWORDS (lower (lit "kidney pain")) = false /\
   is_child_health_query (lit "kidney pain") = true) /\
  (has_keyword_word EMERGENCY_KEYWORDS (lower (lit "rain is falling")) = false /\
   is_emergency (lit "rain is falling") = true).
Proof.
  assert (Ha : forall x, is_child_health_query x = true <->
                 exists w, In w ALLOWED_KEYWORDS /\ Substring w (lower x))
    by (intro x; apply mentionsb_iff).
  assert (He : forall x, is_emergency x = true <->
                 exists w, In w EMERGENCY_KEYWORDS /\ Substring w (lower x))
    by (intro x; apply mentionsb_iff).
  split; [apply Ha|]. split; [apply He|]. split; [|split; [|split]].
  - intro H. apply Ha. exists (lit "kid"). split.
    + apply In_keyword. reflexivity.
    + apply Substring_trans with (lit "kidney"); [|exact H].
      exists [], (lit "ney"). reflexivity.
  - intro H. apply He. exists (lit "fall"). split.
    + apply In_keyword. reflexivity.
    + apply Substring_trans with (lit "falling"); [|exact H].
      exists [], (lit "ing"). reflexivity.
  - unfold is_child_health_query. rewrite lower_ascii by reflexivity.
    split; reflexivity.
  - unfold is_emergency. rewrite lower_ascii by reflexivity.
    split; reflexivity.
Qed.

End KeywordChecks.

(** C9 at two texts in capitals. *)
Lemma C9_checks_are_substring_tests_witness :
  is_child_health_query (lit "My KIDNEY hurts") = true /\
  is_emergency (lit "Leaves are FALLING") = true.
Proof.
  destruct (@C9_checks_are_substring_tests ascii_lowercase (lit "My KIDNEY hurts"))
    as [_ [_ [Hkidney _]]].
  destruct (@C9_checks_are_substring_tests ascii_lowercase (lit "Leaves are FALLING"))
    as [_ [_ [_ [Hfalling _]]]].
  split.
  - apply Hkidney. exists (lit "my "), (lit " hurts"). reflexivity.
  - apply Hfalling. exists (lit "leaves are "), []. reflexivity.
Defined.

(** ** More on [sanitize_response] *)

Section Sanitize.

Lemma contains_app_r (w t d : str) :
  contains w d = true -> contains w (t ++ d) = true.
Proof.
  intro H. apply contains_iff in H as [pre [post ->]].
  apply contains_iff. exists (t ++ pre), post. now rewrite app_assoc.
Qed.

Lemma contains_app_l (w t d : str) :
  contains w t = true -> contains w (t ++ d) = true.
Proof.
  intro H. apply contains_iff in H as [pre [post ->]].
  apply contains_iff. exists pre, (post ++ d). now rewrite <- !app_assoc.
Qed.

Lemma sanitize_response_has_mark (t : str) :
  contains DISCLAIMER_MARK (sanitize_response t) = true.
Proof.
  unfold sanitize_response. destruct (contains DISCLAIMER_MARK t) eqn:E; simpl.
  - exact E.
  - apply contains_app_r. vm_compute. reflexivity.
Qed.

(** X1: [sanitize_response] is idempotent: a text that went through it once
    comes back unchanged from a second pass, so the disclaimer is never
    stacked. *)
Theorem X1_sanitize_response_idempotent (t : str) :
  sanitize_response (sanitize_response t) = sanitize_response t.
Proof.
  unfold sanitize_response at 1.
  now rewrite sanitize_response_has_mark.
Qed.

(** X2: [sanitize_response] never drops or alters characters of its
    argument: the result is the argument followed by nothing or by the fixed
    disclaimer. It is the argument itself exactly when the argument has the
    word "Disclaimer"; otherwise it is 155 code points longer. *)
Theorem X2_sanitize_response_extends (t : str) :
  (exists suffix, sanitize_response t = t ++ suffix /\
                  (suffix = [] \/ suffix = disclaimer)) /\
  (sanitize_response t = t <-> contains (lit "Disclaimer") t = true) /\
  (contains (lit "Disclaimer") t = false ->
   len (sanitize_response t) = len t + 155).
Proof.
  change (lit "Disclaimer") with DISCLAIMER_MARK. unfold sanitize_response.
  destruct (contains DISCLAIMER_MARK t) eqn:E; cbn [negb].
  - split; [exists []; rewrite app_nil_r; auto|]. split; [tauto | discriminate].
  - split; [exists disclaimer; auto|]. split.
    + split; [|discriminate]. intro H.
      rewrite <- (app_nil_r t) in H at 2. apply app_inv_head in H.
      vm_compute in H. discriminate.
    + intros _. unfold len. rewrite length_app. f_equal.
Qed.

End Sanitize.

Lemma X2_sanitize_response_extends_witness :
  len (sanitize_response (lit "Keep the child hydrated.")) = 24 + 155 /\
  sanitize_response (lit "See the Disclaimer below.") = lit "See the Disclaimer below.".
Proof.
  destruct (X2_sanitize_response_extends (lit "Keep the child hydrated."))
    as [_ [_ Hlen]].
  destruct (X2_sanitize_response_extends (lit "See the Disclaimer below."))
    as [_ [Hsame _]].
  split; [apply Hlen | apply Hsame]; reflexivity.
Defined.

(** ** More on input validation *)

Section ValidationEdges.

Context {L : StrLower}.
Variable model : GenerativeModel.

Lemma lstrip_length_le (s : str) : len (lstrip s) <= len s.
Proof.
  unfold len. induction s as [|c s IH]; simpl; [lia|].
  destruct (isspace c); simpl; lia.
Qed.

Lemma strip_length_le (s : str) : len (strip s) <= len s.
Proof.
  unfold strip, rstrip.
  pose proof (lstrip_length_le (rev (lstrip s))) as H1.
  pose proof (lstrip_length_le s) as H2.
  unfold len in *. rewrite length_rev in *. lia.
Qed.

Lemma lstrip_app_space (pre s : str) :
  forallb isspace pre = true -> lstrip (pre ++ s) = lstrip s.
Proof.
  induction pre as [|c pre IH]; simpl; [reflexivity|].
  intro H. apply andb_true_iff in H as [H1 H2]. now rewrite H1, IH.
Qed.

Lemma lstrip_app (s post : str) :
  lstrip (s ++ post) =
  match lstrip s with
  | [] => lstrip post
  | _ :: _ => lstrip s ++ post
  end.
Proof.
  induction s as [|c s IH]; simpl; [reflexivity|].
  destruct (isspace c); [exact IH | reflexivity].
Qed.

Lemma forallb_on_rev (f : N -> bool) (s : str) :
  forallb f s = true -> forallb f (rev s) = true.
Proof.
  rewrite !forallb_forall. intros H x Hx. apply H. now apply in_rev.
Qed.

Lemma rstrip_app_space (s post : str) :
  forallb isspace post = true -> rstrip (s ++ post) = rstrip s.
Proof.
  intro H. unfold rstrip. rewrite rev_app_distr.
  now rewrite (lstrip_app_space (rev post) (rev s) (forallb_on_rev isspace post H)).
Qed.

(** Whitespace around a text is invisible to [strip]. *)
Lemma strip_padded (pre s post : str) :
  forallb isspace pre = true -> forallb isspace post = true ->
  strip (pre ++ s ++ post) = strip s.
Proof.
  intros Hpre Hpost. unfold strip.
  rewrite (lstrip_app_space pre (s ++ post) Hpre), lstrip_app.
  destruct (lstrip s) as [|c r] eqn:E.
  - now rewrite (lstrip_all_space post Hpost).
  - now apply rstrip_app_space.
Qed.


(** X4: the thresholds bind the raw fields too, since stripping never
    lengthens a text: a symptom name under 2 code points or a description
    under 5 is rejected with a 400, before any call. *)
Theorem X4_short_raw_field_rejected (req : SymptomRequest) :
  len (symptom_name req) < 2 \/ len (description req) < 5 ->
  is_400 (outcome (ask_symptom model req)) = true /\
  trace (ask_symptom model req) = [].
Proof.
  intro H.
  assert (Hv : passes_validation req = false).
  { destruct (passes_validation req) eqn:Hv; [|reflexivity].
    apply passes_validation_iff in Hv as [H2 H5].
    pose proof (strip_length_le (symptom_name req)).
    pose proof (strip_length_le (description req)). lia. }
  destruct (ask_symptom_rejected req Hv) as [msg [_ E]].
  rewrite (E model). now split.
Qed.

(** X5: whitespace put before or after the symptom name and the description
    changes nothing to the validation verdict. *)
Theorem X5_whitespace_padding_ignored (req : SymptomRequest) (pre post pre' post' : str) :
  forallb isspace pre = true -> forallb isspace post = true ->
  forallb isspace pre' = true -> forallb isspace post' = true ->
  is_400 (outcome (ask_symptom model (padded req pre post pre' post'))) =
  is_400 (outcome (ask_symptom model req)).
Proof.
  intros H1 H2 H3 H4. rewrite !is_400_iff_rejected. f_equal.
  unfold passes_validation, padded. cbn [symptom_name description].
  rewrite !guard_is_length_test by lia.
  now rewrite (strip_padded pre _ post H1 H2), (strip_padded pre' _ post' H3 H4).
Qed.

End ValidationEdges.


(** X4 at a description of three code points. *)
Lemma X4_short_raw_field_rejected_witness :
  is_400 (outcome (ask_symptom model_hydrate (request_of "Cough" "flu" "mild" "1 day"))) = true /\
  trace (ask_symptom model_hydrate (request_of "Cough" "flu" "mild" "1 day")) = [].
Proof.
  apply (@X4_short_raw_field_rejected ascii_lowercase model_hydrate
           (request_of "Cough" "flu" "mild" "1 day")).
  right. vm_compute. lia.
Defined.

(** X5 at a one-letter name between a tab and two blanks. *)
Lemma X5_whitespace_padding_ignored_witness :
  is_400 (outcome (ask_symptom model_hydrate
            (padded req_short_name [9%N] (lit "  ") [] [10%N]))) = true.
Proof.
  rewrite (@X5_whitespace_padding_ignored ascii_lowercase model_hydrate req_short_name
             [9%N] (lit "  ") [] [10%N]); reflexivity.
Defined.

(** ** The five ways a request ends *)

Section Outcomes.

Context {L : StrLower}.
Variable model : GenerativeModel.

(** Every run of the handler is one of: rejected, refused, alerted,
    answered by the model, failed on the model. *)
Lemma ask_symptom_cases (req : SymptomRequest) :
  let q := combined_query req in
  let t3 := [CallIsChildHealthQuery q; CallIsEmergency q;
             CallGenerateContent (prompt_of req)] in
  (passes_validation req = false /\
   exists msg, ask_symptom model req = ([], inl {| status_code := 400; detail := msg |})) \/
  (passes_validation req = true /\ mentionsb ALLOWED_KEYWORDS q = false /\
   ask_symptom model req = ([CallIsChildHealthQuery q], inr (refusal_response req))) \/
  (passes_validation req = true /\ mentionsb ALLOWED_KEYWORDS q = true /\
   mentionsb EMERGENCY_KEYWORDS q = true /\
   ask_symptom model req =
     ([CallIsChildHealthQuery q; CallIsEmergency q], inr (emergency_response req))) \/
  (passes_validation req = true /\ mentionsb ALLOWED_KEYWORDS q = true /\
   mentionsb EMERGENCY_KEYWORDS q = false /\
   exists c r, model (prompt_of req) = Text (c :: r) /\
     ask_symptom model req =
       (t3, inr (model_response req (sanitize_response (c :: r))))) \/
  (passes_validation req = true /\ mentionsb ALLOWED_KEYWORDS q = true /\
   mentionsb EMERGENCY_KEYWORDS q = false /\
   exists msg,
     (model (prompt_of req) = Raises msg \/
      (model (prompt_of req) = Text [] /\ msg = lit "Empty response from API")) /\
     ask_symptom model req =
       (t3, inl {| status_code := 500; detail := lit "An error occurred: " ++ msg |})).
Proof.
  cbv zeta. destruct (passes_validation req) eqn:Hv.
  - right. rewrite (ask_symptom_valid model req Hv). cbv zeta.
    rewrite is_child_health_query_combined, is_emergency_combined.
    destruct (mentionsb ALLOWED_KEYWORDS (combined_query req)); [|left; auto].
    right. destruct (mentionsb EMERGENCY_KEYWORDS (combined_query req)); [left; auto|].
    right. destruct (model (prompt_of req)) as [[|c r]|msg].
    + right. repeat (split; [reflexivity|]).
      exists (lit "Empty response from API"). auto.
    + left. repeat (split; [reflexivity|]). exists c, r. auto.
    + right. repeat (split; [reflexivity|]). exists msg. auto.
  - left. split; [reflexivity|].
    destruct (ask_symptom_rejected req Hv) as [msg [_ E]]. exists msg. apply E.
Qed.

(** X6: the model is called exactly for the requests that pass validation
    and whose lowercased text has an allow-listed keyword and no emergency
    keyword; it is then called once, with the prompt built from the
    request. *)
Theorem X6_model_called_iff (req : SymptomRequest) :
  ((exists prompt, In (CallGenerateContent prompt) (trace (ask_symptom model req))) <->
   passes_validation req = true /\
   mentions ALLOWED_KEYWORDS (combined_query req) /\
   ~ mentions EMERGENCY_KEYWORDS (combined_query req)) /\
  (forall prompt, In (CallGenerateContent prompt) (trace (ask_symptom model req)) ->
                  prompt = prompt_of req) /\
  List.length (filter is_model_call (trace (ask_symptom model req))) <= 1.
Proof.
  rewrite <- mentionsb_iff, <- mentionsb_false_iff.
  destruct (ask_symptom_cases req)
    as [[Hv [m E]] | [[Hv [Ha E]] | [[Hv [Ha [He E]]] | [[Hv [Ha [He [c [r [_ E]]]]]]
        | [Hv [Ha [He [m [_ E]]]]]]]]];
    rewrite E, Hv; cbn [trace fst filter is_model_call List.length];
    (split; [|split; [|lia]]).
  - split; [intros [p []] | intros [H _]; discriminate].
  - intros p [].
  - rewrite Ha. split; [intros [p [H | []]]; discriminate | intros [_ [H _]]; discriminate].
  - intros p [H | []]. discriminate.
  - rewrite He. split; [intros [p [H | [H | []]]]; discriminate | intros [_ [_ H]]; discriminate].
  - intros p [H | [H | []]]; discriminate.
  - rewrite Ha, He. split; [auto | intros _; eexists; right; right; left; reflexivity].
  - intros p [H | [H | [H | []]]]; try discriminate. now injection H.
  - rewrite Ha, He. split; [auto | intros _; eexists; right; right; left; reflexivity].
  - intros p [H | [H | [H | []]]]; try discriminate. now injection H.
Qed.


Lemma sanitize_response_is_not_the_alert (t : str) :
  sanitize_response t <> EMERGENCY_ALERT.
Proof.
  intro H. pose proof (sanitize_response_has_mark t) as Hm.
  rewrite H in Hm. vm_compute in Hm. discriminate.
Qed.

(** X8: in a 200 response the emergency flag is true exactly when the
    response text is the fixed emergency alert, and exactly when the
    lowercased text has both an allow-listed and an emergency keyword: a
    text written by the model is never flagged, and the alert never comes
    unflagged. *)
Theorem X8_emergency_flag_iff_alert (req : SymptomRequest) (resp : json) :
  outcome (ask_symptom model req) = inr resp ->
  (get "emergency" resp = Some (JBool true) <->
   get "response" resp = Some (JStr EMERGENCY_ALERT)) /\
  (get "emergency" resp = Some (JBool true) <->
   mentions ALLOWED_KEYWORDS (combined_query req) /\
   mentions EMERGENCY_KEYWORDS (combined_query req)).
Proof.
  rewrite <- !mentionsb_iff.
  destruct (ask_symptom_cases req)
    as [[Hv [m E]] | [[Hv [Ha E]] | [[Hv [Ha [He E]]] | [[Hv [Ha [He [c [r [_ E]]]]]]
        | [Hv [Ha [He [m [_ E]]]]]]]]];
    rewrite E; cbn [outcome snd]; intro H; try discriminate;
    injection H as <-; rewrite ?Ha, ?He;
    cbn [get refusal_response emergency_response model_response];
    change (String.eqb "response" "emergency") with false;
    change (String.eqb "response" "response") with true;
    change (String.eqb "emergency" "emergency") with true;
    cbv iota; split.
  - split; [discriminate|]. intro H. injection H as H. vm_compute in H. discriminate.
  - split; [discriminate | intros [H _]; discriminate].
  - tauto.
  - tauto.
  - split; [discriminate|]. intro H. injection H as H.
    now apply sanitize_response_is_not_the_alert in H.
  - split; [discriminate | intros [_ H]; discriminate].
Qed.

(** X11: the response text of a 200 response is never empty. *)
Theorem X11_response_text_not_empty (req : SymptomRequest) (resp : json) :
  outcome (ask_symptom model req) = inr resp ->
  exists text, get "response" resp = Some (JStr text) /\ text <> [].
Proof.
  destruct (ask_symptom_cases req)
    as [[Hv [m E]] | [[Hv [Ha E]] | [[Hv [Ha [He E]]] | [[Hv [Ha [He [c [r [_ E]]]]]]
        | [Hv [Ha [He [m [_ E]]]]]]]]];
    rewrite E; cbn [outcome snd]; intro H; try discriminate;
    injection H as <-; eexists; (split; [reflexivity|]).
  - vm_compute. discriminate.
  - vm_compute. discriminate.
  - unfold sanitize_response. destruct (negb _); discriminate.
Qed.

End Outcomes.

(** X6 at [req_cough], where the model is called, under a model that is
    down. *)
Lemma X6_model_called_iff_witness :
  exists prompt, In (CallGenerateContent prompt) (trace (ask_symptom model_down req_cough)).
Proof.
  apply (@X6_model_called_iff ascii_lowercase model_down req_cough).
  split; [reflexivity|].
  split; [apply mentionsb_iff | apply mentionsb_false_iff]; reflexivity.
Defined.


(** X8 at [req_unconscious], flagged, and at [req_cough], not flagged. *)
Lemma X8_emergency_flag_iff_alert_witness :
  get "emergency" (emergency_response req_unconscious) = Some (JBool true) /\
  get "response" (model_response req_cough (lit "Keep the child hydrated." ++ disclaimer))
    <> Some (JStr EMERGENCY_ALERT).
Proof.
  destruct (@X8_emergency_flag_iff_alert ascii_lowercase model_hydrate req_unconscious
              (emergency_response req_unconscious)) as [Halert _]; [reflexivity|].
  destruct (@X8_emergency_flag_iff_alert ascii_lowercase model_hydrate req_cough
              (model_response req_cough (lit "Keep the child hydrated." ++ disclaimer)))
    as [Hplain _]; [reflexivity|].
  split.
  - apply Halert. reflexivity.
  - intro H. apply Hplain in H. discriminate.
Defined.

(** X11 at [req_cough]. *)
Lemma X11_response_text_not_empty_witness :
  exists text,
    get "response" (model_response req_cough (lit "Keep the child hydrated." ++ disclaimer)) =
      Some (JStr text) /\ text <> [].
Proof.
  apply (@X11_response_text_not_empty ascii_lowercase model_hydrate req_cough).
  reflexivity.
Defined.

(** ** What the handler takes from the model *)

Section ModelUse.

Context {L : StrLower}.

(** X12: the handler reads the model at one prompt only, the one it builds
    from the request: two models that agree there give the same trace and
    the same outcome. *)
Theorem X12_model_read_at_one_prompt (m1 m2 : GenerativeModel) (req : SymptomRequest) :
  m1 (prompt_of req) = m2 (prompt_of req) ->
  ask_symptom m1 req = ask_symptom m2 req.
Proof.
  intro H. destruct (passes_validation req) eqn:Hv.
  - rewrite (ask_symptom_valid m1 req Hv), (ask_symptom_valid m2 req Hv).
    cbv zeta. now rewrite H.
  - destruct (ask_symptom_rejected req Hv) as [msg [_ E]].
    now rewrite (E m1), (E m2).
Qed.

End ModelUse.

(** X12 at [req_cough], under a model that fails on every other prompt. *)
Lemma X12_model_read_at_one_prompt_witness :
  ask_symptom model_hydrate req_cough = ask_symptom model_cough_only req_cough.
Proof.
  apply (@X12_model_read_at_one_prompt ascii_lowercase model_hydrate model_cough_only
           req_cough).
  vm_compute. reflexivity.
Defined.

(** ** The filters on ASCII requests *)

Section AsciiRequests.

Context {L : StrLower}.

Lemma isspace_ascii_lower (c : N) : isspace (ascii_lower c) = isspace c.
Proof.
  unfold ascii_lower.
  destruct ((65 <=? c) && (c <=? 90))%N eqn:E; [|reflexivity].
  apply andb_true_iff in E as [E1 E2]. apply N.leb_le in E1, E2.
  unfold isspace.
  repeat match goal with
  | |- context [(?a <=? ?b)%N] => destruct (N.leb_spec a b); try lia
  | |- context [(?a =? ?b)%N] => destruct (N.eqb_spec a b); try lia
  end; reflexivity.
Qed.

Lemma lstrip_ascii_lower (s : str) :
  lstrip (map ascii_lower s) = map ascii_lower (lstrip s).
Proof.
  induction s as [|c s IH]; [reflexivity|]. simpl.
  rewrite isspace_ascii_lower. destruct (isspace c); [exact IH | reflexivity].
Qed.

Lemma strip_ascii_lower (s : str) :
  strip (map ascii_lower s) = map ascii_lower (strip s).
Proof.
  unfold strip, rstrip.
  now rewrite lstrip_ascii_lower, <- map_rev, lstrip_ascii_lower, map_rev.
Qed.

Lemma len_strip_ascii_lower (s s' : str) :
  map ascii_lower s = map ascii_lower s' -> len (strip s) = len (strip s').
Proof.
  intro H. unfold len.
  rewrite <- (length_map ascii_lower (strip s)), <- (length_map ascii_lower (strip s')).
  now rewrite <- !strip_ascii_lower, H.
Qed.

(** On an ASCII request the text the filters read is the four lowercased
    fields with one blank between them. *)
Lemma combined_query_ascii (req : SymptomRequest) :
  ascii_request req = true ->
  combined_query req =
  map ascii_lower (symptom_name req) ++ lit " " ++
  map ascii_lower (description req) ++ lit " " ++
  map ascii_lower (severity req) ++ lit " " ++
  map ascii_lower (duration req).
Proof.
  unfold ascii_request. rewrite !andb_true_iff. intros [[[H1 H2] H3] H4].
  unfold combined_query, joined_fields. rewrite lower_ascii.
  - now rewrite !map_app.
  - rewrite !forallb_app, H1, H2, H3, H4. reflexivity.
Qed.

(** Where a request leaves the pipeline shows in the number of its calls. *)
Lemma trace_length (model : GenerativeModel) (req : SymptomRequest) :
  List.length (trace (ask_symptom model req)) =
  if passes_validation req then
    if mentionsb ALLOWED_KEYWORDS (combined_query req) then
      if mentionsb EMERGENCY_KEYWORDS (combined_query req) then 2 else 3
    else 1
  else 0.
Proof.
  destruct (ask_symptom_cases model req)
    as [[Hv [m E]] | [[Hv [Ha E]] | [[Hv [Ha [He E]]] | [[Hv [Ha [He [c [r [_ E]]]]]]
        | [Hv [Ha [He [m [_ E]]]]]]]]];
    rewrite E, Hv, ?Ha, ?He; reflexivity.
Qed.

(** X9: on ASCII requests the pipeline is blind to letter case. Two
    requests whose fields are equal once lowercased pass or fail validation
    together, give the filters the same text, and leave the pipeline at the
    same stage under any models. *)
Theorem X9_ascii_case_ignored (req req' : SymptomRequest) :
  ascii_request req = true -> ascii_request req' = true ->
  map ascii_lower (symptom_name req) = map ascii_lower (symptom_name req') ->
  map ascii_lower (description req) = map ascii_lower (description req') ->
  map ascii_lower (severity req) = map ascii_lower (severity req') ->
  map ascii_lower (duration req) = map ascii_lower (duration req') ->
  passes_validation req = passes_validation req' /\
  combined_query req = combined_query req' /\
  forall m m', List.length (trace (ask_symptom m req)) =
               List.length (trace (ask_symptom m' req')).
Proof.
  intros Hr Hr' H1 H2 H3 H4.
  assert (Hq : combined_query req = combined_query req').
  { rewrite (combined_query_ascii req Hr), (combined_query_ascii req' Hr').
    now rewrite H1, H2, H3, H4. }
  assert (Hv : passes_validation req = passes_validation req').
  { unfold passes_validation. rewrite !guard_is_length_test by lia.
    now rewrite (len_strip_ascii_lower _ _ H1), (len_strip_ascii_lower _ _ H2). }
  repeat split; [exact Hv | exact Hq |].
  intros m m'. now rewrite !trace_length, Hv, Hq.
Qed.

(** X10: on ASCII requests the filters read all four fields. A keyword that
    occurs in the lowercase of any one field, severity and duration
    included, occurs in the text both filters test. *)
Theorem X10_every_field_is_filtered (req : SymptomRequest) (kws : list str) (w : str) :
  ascii_request req = true ->
  In w kws ->
  Substring w (map ascii_lower (symptom_name req)) \/
  Substring w (map ascii_lower (description req)) \/
  Substring w (map ascii_lower (severity req)) \/
  Substring w (map ascii_lower (duration req)) ->
  mentions kws (combined_query req).
Proof.
  intros Hr Hin H. exists w. split; [exact Hin|].
  rewrite (combined_query_ascii req Hr).
  destruct H as [[p [q ->]] | [[p [q ->]] | [[p [q ->]] | [p [q ->]]]]].
  - exists p.
    eexists. rewrite <- !app_assoc. reflexivity.
  - exists (map ascii_lower (symptom_name req) ++ lit " " ++ p).
    eexists. rewrite <- !app_assoc. reflexivity.
  - exists (map ascii_lower (symptom_name req) ++ lit " " ++
            map ascii_lower (description req) ++ lit " " ++ p).
    eexists. rewrite <- !app_assoc. reflexivity.
  - exists (map ascii_lower (symptom_name req) ++ lit " " ++
            map ascii_lower (description req) ++ lit " " ++
            map ascii_lower (severity req) ++ lit " " ++ p), q.
    rewrite <- !app_assoc. reflexivity.
Qed.

End AsciiRequests.

(** X9 at [req_cough] and the same request in capitals. *)
Lemma X9_ascii_case_ignored_witness :
  combined_query req_cough =
    combined_query (request_of "COUGH" "MY CHILD HAS A DRY COUGH" "MILD" "2 DAYS") /\
  List.length (trace (ask_symptom model_hydrate req_cough)) =
    List.length (trace (ask_symptom model_down
                   (request_of "COUGH" "MY CHILD HAS A DRY COUGH" "MILD" "2 DAYS"))).
Proof.
  destruct (@X9_ascii_case_ignored ascii_lowercase req_cough
              (request_of "COUGH" "MY CHILD HAS A DRY COUGH" "MILD" "2 DAYS"))
    as [_ [Hq Hlen]]; try reflexivity.
  split; [exact Hq | apply Hlen].
Defined.

(** X10 at a request whose duration alone holds the emergency term "104". *)
Lemma X10_every_field_is_filtered_witness :
  mentionsb EMERGENCY_KEYWORDS (lit "fever my child feels hot high") = false /\
  mentions EMERGENCY_KEYWORDS (combined_query req_duration_104).
Proof.
  split; [reflexivity|].
  apply (@X10_every_field_is_filtered ascii_lowercase req_duration_104
           EMERGENCY_KEYWORDS (lit "104")).
  - reflexivity.
  - apply In_keyword. reflexivity.
  - right. right. right. exists [], (lit " since noon"). reflexivity.
Defined.

(** ** The API key at start-up *)

Section StartUp.

(** X13: the module starts only with a non-empty [GEMINI_API_KEY]. A
    variable set to the empty string is refused with the same [ValueError]
    as a variable that is not set; otherwise the key is the variable's
    value, whatever else the environment holds. *)
Theorem X13_api_key_required (env : environ) :
  (api_key env =
     inl (ValueError (lit "GEMINI_API_KEY not found in environment variables")) <->
   getenv env "GEMINI_API_KEY" = None \/ getenv env "GEMINI_API_KEY" = Some []) /\
  (forall key, api_key env = inr key <->
               getenv env "GEMINI_API_KEY" = Some key /\ key <> []) /\
  (forall name value, name <> "GEMINI_API_KEY"%string ->
                      api_key ((name, value) :: env) = api_key env).
Proof.
  unfold api_key. split; [|split].
  - destruct (getenv env "GEMINI_API_KEY") as [[|c k]|]; cbn [truthy negb].
    + split; auto.
    + split; [discriminate | intros [H | H]; discriminate].
    + split; auto.
  - intro key. destruct (getenv env "GEMINI_API_KEY") as [[|c k]|]; cbn [truthy negb].
    + split; [discriminate | intros [H Hne]; injection H as <-; contradiction].
    + split; [intro H; injection H as <-; split; [reflexivity | discriminate]|].
      intros [H _]. now injection H as <-.
    + split; [discriminate | intros [H _]; discriminate].
  - intros name value Hne. cbn [getenv].
    apply String.eqb_neq in Hne. now rewrite Hne.
Qed.

End StartUp.

(** X13 at an environment where the key is set but empty, and at one where
    it follows another variable. *)
Lemma X13_api_key_required_witness :
  api_key [("GEMINI_API_KEY"%string, [])] =
    inl (ValueError (lit "GEMINI_API_KEY not found in environment variables")) /\
  api_key [("PORT"%string, lit "8000"); ("GEMINI_API_KEY"%string, lit "k-1")] =
    inr (lit "k-1").
Proof.
  destruct (X13_api_key_required [("GEMINI_API_KEY"%string, [])]) as [Hempty _].
  destruct (X13_api_key_required [("GEMINI_API_KEY"%string, lit "k-1")])
    as [_ [Hkey Hother]].
  split.
  - apply Hempty. right. reflexivity.
  - rewrite Hother by discriminate. apply Hkey. split; [reflexivity | discriminate].
Defined.
